(** * healthy-api: the user service and the user controller

    A shallow embedding of [app/service/user_service.py] and
    [app/controller/user_controller.py].

    The database behind [DB.session] is a record of two finite maps (the
    [users] table and the [structures] table, keyed by primary key) and the
    id sequence of the users table.  Code that reads or writes it runs in a
    small reader/state/exception monad: the reader part is the Flask request
    context (token identity, clock, salt), the state part is the committed
    database, an exception is a Python exception that leaves the handler. *)

From stdpp Require Import base option gmap sets list strings.
From Stdlib Require Import ZArith.

Local Open Scope Z_scope.

(** ** Data model *)

Module User.

(** A row of the [users] table.  The primary key [id] is the key of the
    table, so a row holds the other columns. *)
Record row := Row {
  row_username : string;
  row_password_hash : string;
  row_created_on : Z
}.

(** An instance of the mapped class [User]: the attributes the controller
    reads or passes to the constructor.  An attribute that was never set on
    a transient instance is [None]. *)
Record t := Obj {
  id : option Z;
  username : option string;
  password_hash : option string;
  created_on : option Z;
  structures : option (gset Z)
}.

End User.

Module Structure.

(** A row of the polymorphic [structures] table: the owner ([user_id]
    foreign key), the users that favourited it ([favourites_of]) and the
    discriminator with the columns of its concrete subtype. *)
Record t := Row {
  user_id : option Z;
  favourites_of : gset Z;
  polymorphic_identity : string;
  subtype_columns : list (string * string)
}.

End Structure.

Record DB := Db {
  users : gmap Z User.row;
  structures : gmap Z Structure.t;
  users_id_seq : Z
}.

(** The request context: what [get_jwt_identity()] finds in the verified
    bearer token ([None] when the request carries no valid token), the clock
    and the salt drawn when a password is hashed. *)
Record context := Ctx {
  jwt_identity : option Z;
  now : Z;
  salt : string
}.

(** ** Exceptions and the monad *)

Inductive exn :=
| AttributeError (name : string)
| KeyError (key : string)
| TypeError
| IntegrityError
| NoAuthorizationError
| HTTPException (code : Z).

Inductive outcome (A : Type) :=
| Return (a : A)
| Raise (e : exn).
Arguments Return {A} a.
Arguments Raise {A} e.

Definition M (A : Type) : Type := context → DB → outcome A * DB.

Global Instance M_ret : MRet M := λ A a _ st, (Return a, st).

Global Instance M_bind : MBind M := λ A B f m ctx st,
  match m ctx st with
  | (Return a, st') => f a ctx st'
  | (Raise e, st') => (Raise e, st')
  end.

Definition raise {A} (e : exn) : M A := λ _ st, (Raise e, st).
Definition ask : M context := λ ctx st, (Return ctx, st).

(** [d[key]] on a payload dictionary. *)
Definition getitem {V} (d : gmap string V) (key : string) : M V :=
  match d !! key with
  | Some v => mret v
  | None => raise (KeyError key)
  end.

(** ** The ORM layer used by the service *)

(** [User.structures]: the ids of the structures whose [user_id] is the
    user. *)
Definition owned_by (uid : Z) (ss : gmap Z Structure.t) : gmap Z Structure.t :=
  filter (λ kv, Structure.user_id kv.2 = Some uid) ss.

Definition favourited_by (uid : Z) (ss : gmap Z Structure.t) : gmap Z Structure.t :=
  filter (λ kv, uid ∈ Structure.favourites_of kv.2) ss.

(** The persistent instance loaded from a row. *)
Definition load (uid : Z) (r : User.row) (st : DB) : User.t :=
  User.Obj (Some uid) (Some (User.row_username r))
           (Some (User.row_password_hash r)) (Some (User.row_created_on r))
           (Some (dom (owned_by uid (structures st)))).

(** Modelled from the spec: [app/model/user.py] is not among the sources.
    The [users] table has a uniqueness constraint on [username]. *)
Definition username_taken (name : string) (except : option Z)
    (us : gmap Z User.row) : Prop :=
  ∃ uid r, us !! uid = Some r ∧ User.row_username r = name ∧ Some uid ≠ except.

Global Instance username_taken_dec name except us :
  Decision (username_taken name except us).
Proof.
  refine (cast_if (decide (Exists (λ kv, User.row_username kv.2 = name
                                         ∧ Some kv.1 ≠ except)
                                  (map_to_list us)))).
  - apply Exists_exists in e as [[uid r] [Hin [? ?]]].
    apply elem_of_map_to_list in Hin. exists uid, r. done.
  - intros (uid & r & Hl & ? & ?). apply n, Exists_exists.
    exists (uid, r). split; [by apply elem_of_map_to_list | done].
Defined.

(** Assigning the collection [User.structures] of user [uid]: the members
    get [user_id = uid], a structure that leaves the collection gets a null
    owner. *)
Definition set_owned (uid : Z) (members : gset Z)
    (ss : gmap Z Structure.t) : gmap Z Structure.t :=
  map_imap (λ sid s,
    Some (Structure.Row
            (if decide (sid ∈ members) then Some uid
             else if decide (Structure.user_id s = Some uid) then None
             else Structure.user_id s)
            (Structure.favourites_of s)
            (Structure.polymorphic_identity s)
            (Structure.subtype_columns s))) ss.

Definition with_structures (uid : Z) (members : option (gset Z))
    (ss : gmap Z Structure.t) : gmap Z Structure.t :=
  match members with
  | Some ms => set_owned uid ms ss
  | None => ss
  end.

(** INSERT of a pending instance at flush: the id comes from the instance or
    from the sequence, [created_on] defaults to the clock, [username] and
    [password_hash] are not nullable, primary key and username are unique.
    Returns the instance as refreshed after the commit. *)
Definition flush_insert (user : User.t) : M User.t := λ ctx st,
  match User.username user, User.password_hash user with
  | Some name, Some hash =>
      let uid := default (users_id_seq st) (User.id user) in
      if decide (is_Some (users st !! uid) ∨ username_taken name None (users st))
      then (Raise IntegrityError, st)
      else
        let r := User.Row name hash (default (now ctx) (User.created_on user)) in
        let st' := Db (<[uid := r]> (users st))
                      (with_structures uid (User.structures user) (structures st))
                      (match User.id user with
                       | Some _ => users_id_seq st
                       | None => users_id_seq st + 1
                       end) in
        (Return (load uid r st'), st')
  | _, _ => (Raise IntegrityError, st)
  end.

(** [DB.session.merge(user); DB.session.commit()]: the attributes set on the
    given instance are copied onto the persistent instance with the same
    primary key, attributes that were not set keep their stored value; an
    instance without a stored counterpart is inserted. *)
Definition session_merge (user : User.t) : M unit := λ ctx st,
  match User.id user ≫= λ uid, (uid,.) <$> users st !! uid with
  | Some (uid, r) =>
      let name := default (User.row_username r) (User.username user) in
      if decide (username_taken name (Some uid) (users st))
      then (Raise IntegrityError, st)
      else
        let r' := User.Row name
                    (default (User.row_password_hash r) (User.password_hash user))
                    (default (User.row_created_on r) (User.created_on user)) in
        (Return (),
         Db (<[uid := r']> (users st))
            (with_structures uid (User.structures user) (structures st))
            (users_id_seq st))
  | None => (_ ← flush_insert user; mret ()) ctx st
  end.

(** [DB.session.delete(user); DB.session.commit()]: the row goes, its rows
    of the favourites association go with it, the structures it owned get a
    null owner. *)
Definition session_delete (uid : Z) : M unit := λ _ st,
  (Return (),
   Db (delete uid (users st))
      ((λ s, Structure.Row
               (if decide (Structure.user_id s = Some uid) then None
                else Structure.user_id s)
               (Structure.favourites_of s ∖ {[uid]})
               (Structure.polymorphic_identity s)
               (Structure.subtype_columns s)) <$> structures st)
      (users_id_seq st)).

(** Modelled from the spec: [app/model/user.py] is not among the sources.
    The write-only property [User.password] stores a salted hash of the value
    assigned to it in [password_hash]; [generate_password_hash] is the hash
    function, taken as a parameter. *)
Definition set_password (generate_password_hash : string → string → string)
    (password : string) (user : User.t) : M User.t := λ ctx st,
  (Return (User.Obj (User.id user) (User.username user)
                    (Some (generate_password_hash (salt ctx) password))
                    (User.created_on user) (User.structures user)), st).

(** ** app/service/user_service.py *)

Definition get_all_user : M (list User.t) := λ _ st,
  (Return ((λ kv, load kv.1 kv.2 st) <$> map_to_list (users st)), st).

(** [add_user] returns nothing in Python; the instance it was given is
    refreshed by the commit, and that refreshed instance is what the model
    returns. *)
Definition add_user (user : User.t) : M User.t :=
  flush_insert user.

Definition get_user (user_id : Z) : M (option User.t) := λ _ st,
  (Return ((λ r, load user_id r st) <$> users st !! user_id), st).

Definition update_user (user : User.t) : M unit :=
  session_merge user.

Definition delete_user (user_id : Z) : M unit :=
  user ← get_user user_id;
  match user with
  | Some _ => session_delete user_id
  | None => mret ()
  end.

Definition get_all_structure_by_user (user_id : Z) : M (list (Z * Structure.t)) :=
  λ _ st, (Return (map_to_list (owned_by user_id (structures st))), st).

Definition get_favourites_by_user (user_id : Z) : M (list (Z * Structure.t)) :=
  λ _ st, (Return (map_to_list (favourited_by user_id (structures st))), st).

(** ** The module object [user_service]

    The controller reaches the service through the module object
    ([import app.service.user_service as user_service]) and Python resolves
    [user_service.name] when the call runs: a name the module does not bind
    is an [AttributeError] at that point.  The namespace below lists what
    [user_service.py] binds, its imports and its seven functions.  The
    handlers call [get_all_user], [add_user], [get_user], [update_user],
    [delete_user] and [get_all_structure_by_user], which are bound, through
    the definitions above; the favourites handlers ask for
    [get_favorites_by_user], [add_favorite_to_user] and [delete_favorite],
    and those lookups go through the namespace.

    An attribute is a function from a user id to structures ([Query]), a
    function of a user id and a structure id ([Assoc]), or anything else. *)

Inductive attribute :=
| Query (f : Z → M (list (Z * Structure.t)))
| Assoc (f : Z → Z → M unit)
| Other.

Definition user_service : gmap string attribute :=
  list_to_map [
    ("with_polymorphic", Other);
    ("DB", Other);
    ("Structure", Other);
    ("User", Other);
    ("get_all_user", Other);
    ("add_user", Other);
    ("get_user", Other);
    ("update_user", Other);
    ("delete_user", Other);
    ("get_all_structure_by_user", Query get_all_structure_by_user);
    ("get_favourites_by_user", Query get_favourites_by_user)
  ].

Definition call_query (service : gmap string attribute) (name : string)
    (user_id : Z) : M (list (Z * Structure.t)) :=
  match service !! name with
  | Some (Query f) => f user_id
  | Some _ => raise TypeError
  | None => raise (AttributeError name)
  end.

Definition call_assoc (service : gmap string attribute) (name : string)
    (user_id structure_id : Z) : M unit :=
  match service !! name with
  | Some (Assoc f) => f user_id structure_id
  | Some _ => raise TypeError
  | None => raise (AttributeError name)
  end.

(** ** Flask, flask_jwt_extended and flask_restplus *)

Definition jwt_required {A} (handler : M A) : M A :=
  ctx ← ask;
  match jwt_identity ctx with
  | Some _ => handler
  | None => raise NoAuthorizationError
  end.

Definition get_jwt_identity : M (option Z) :=
  ctx ← ask; mret (jwt_identity ctx).

Definition abort {A} (code : Z) : M A := raise (HTTPException code).

(** [user.attr] where [user] may be [None]. *)
Definition getattr {X} (user : option User.t) (attr : User.t → option X)
    (name : string) : M (option X) :=
  match user with
  | Some u => mret (attr u)
  | None => raise (AttributeError name)
  end.

(** The response shape [USER_MODEL]: the three fields it declares.
    Marshalling reads each field with [getattr(obj, field, None)], so [None]
    marshals to three nulls. *)
Record user_json := UserJson {
  json_id : option Z;
  json_username : option string;
  json_created_on : option Z
}.

Definition USER_MODEL (user : option User.t) : user_json :=
  match user with
  | Some u => UserJson (User.id u) (User.username u) (User.created_on u)
  | None => UserJson None None None
  end.

(** What [structures_to_geojson] is applied to: a query result or the result
    of [get_structure]. *)
Inductive structs :=
| Rows (rows : list (Z * Structure.t))
| Instance (s : option (Z * Structure.t)).

Section Controller.

(** [app/service/struct_service.py] and [app/model/user.py] are not among
    the sources: the GeoJSON serialiser, the structure lookup and the
    password hash are parameters of the controller. *)
Context {geojson : Type}.
Variable structures_to_geojson : structs → geojson.
Variable get_structure : Z → M (option (Z * Structure.t)).
Variable generate_password_hash : string → string → string.

(** The module object the controller imported. *)
Variable service : gmap string attribute.

Inductive body :=
| UserBody (j : user_json)
| UserListBody (js : list user_json)
| FeatureBody (g : geojson)
| FeatureCollectionBody (g : geojson)
| EmptyBody.

Record response := Response {
  resp_body : body;
  resp_status : Z
}.

(** The status the client sees: a returned response carries its own, an
    [abort(code)] carries [code], a missing token is answered 401 by
    flask_jwt_extended, any other exception is a server error. *)
Definition http_status (o : outcome response) : Z :=
  match o with
  | Return r => resp_status r
  | Raise (HTTPException code) => code
  | Raise NoAuthorizationError => 401
  | Raise _ => 500
  end.

(** *** UserListController *)

Definition UserListController_get : M response :=
  all ← get_all_user;
  mret (Response (UserListBody ((λ u, USER_MODEL (Some u)) <$> all)) 200).

Definition UserListController_post (payload : gmap string string) : M response :=
  username ← getitem payload "username";
  password ← getitem payload "password";
  user ← set_password generate_password_hash password
            (User.Obj None (Some username) None None None);
  user ← add_user user;
  mret (Response (UserBody (USER_MODEL (Some user))) 201).

(** *** UserController *)

Definition UserController_get (user_id : Z) : M response :=
  user ← get_user user_id;
  mret (Response (UserBody (USER_MODEL user)) 200).

Definition UserController_put (payload : gmap string string) (user_id : Z)
    : M response :=
  jwt_required (
    user ← get_user user_id;
    username ← getitem payload "username";
    password_hash ← getattr user User.password_hash "password_hash";
    created_on ← getattr user User.created_on "created_on";
    structures ← getattr user User.structures "structures";
    let updated_user :=
      User.Obj (Some user_id) (Some username) password_hash created_on
               structures in
    updated_user ←
      (if decide ("password" ∈ dom payload)
       then password ← getitem payload "password";
            set_password generate_password_hash password updated_user
       else mret updated_user);
    _ ← update_user updated_user;
    mret (Response (UserBody (USER_MODEL (Some updated_user))) 200)).

Definition UserController_delete (user_id : Z) : M response :=
  jwt_required (
    identity ← get_jwt_identity;
    _ ← (if decide (Some user_id ≠ identity) then abort 401 else mret ());
    _ ← delete_user user_id;
    mret (Response EmptyBody 204)).

(** *** StructureUserController *)

Definition StructureUserController_get (user_id : Z) : M response :=
  rows ← get_all_structure_by_user user_id;
  mret (Response (FeatureCollectionBody (structures_to_geojson (Rows rows))) 200).

(** *** FavoritesUserController *)

Definition FavoritesUserController_get (user_id : Z) : M response :=
  rows ← call_query service "get_favorites_by_user" user_id;
  mret (Response (FeatureCollectionBody (structures_to_geojson (Rows rows))) 200).

Definition FavoritesUserController_post (payload : gmap string Z)
    (user_id : Z) : M response :=
  jwt_required (
    structure_id ← getitem payload "structure_id";
    _ ← call_assoc service "add_favorite_to_user" user_id structure_id;
    s ← get_structure structure_id;
    mret (Response (FeatureBody (structures_to_geojson (Instance s))) 200)).

(** *** FavoriteUserDeleteController *)

Definition FavoriteUserDeleteController_delete (user_id favorite_id : Z)
    : M response :=
  jwt_required (
    identity ← get_jwt_identity;
    if decide (Some user_id = identity)
    then _ ← call_assoc service "delete_favorite" user_id favorite_id;
         mret (Response EmptyBody 204)
    else abort 401).

(** *** The routes *)

Inductive request :=
| GET_users
| POST_users (payload : gmap string string)
| GET_user (user_id : Z)
| PUT_user (user_id : Z) (payload : gmap string string)
| DELETE_user (user_id : Z)
| GET_user_structures (user_id : Z)
| GET_user_favorites (user_id : Z)
| POST_user_favorites (user_id : Z) (payload : gmap string Z)
| DELETE_user_favorite (user_id favorite_id : Z).

Definition dispatch (req : request) : M response :=
  match req with
  | GET_users => UserListController_get
  | POST_users payload => UserListController_post payload
  | GET_user user_id => UserController_get user_id
  | PUT_user user_id payload => UserController_put payload user_id
  | DELETE_user user_id => UserController_delete user_id
  | GET_user_structures user_id => StructureUserController_get user_id
  | GET_user_favorites user_id => FavoritesUserController_get user_id
  | POST_user_favorites user_id payload =>
      FavoritesUserController_post payload user_id
  | DELETE_user_favorite user_id favorite_id =>
      FavoriteUserDeleteController_delete user_id favorite_id
  end.

(** A sequence of requests, each with its own context, served one after the
    other: what the clients see and the database at the end. *)
Fixpoint serve (reqs : list (context * request)) (st : DB)
    : list (outcome response) * DB :=
  match reqs with
  | [] => ([], st)
  | (ctx, req) :: rest =>
      let (o, st') := dispatch req ctx st in
      let (os, st'') := serve rest st' in
      (o :: os, st'')
  end.

End Controller.

(** ** The public view of the database: every password hash blanked *)

Definition redact_row (r : User.row) : User.row :=
  User.Row (User.row_username r) "" (User.row_created_on r).

Definition public (st : DB) : DB :=
  Db (redact_row <$> users st) (structures st) (users_id_seq st).

(** ** Routes by decorator and method *)

(** The routes whose handler is decorated with [@jwt_required]. *)
Definition requires_token (req : request) : bool :=
  match req with
  | PUT_user _ _ | DELETE_user _
  | POST_user_favorites _ _ | DELETE_user_favorite _ _ => true
  | GET_users | POST_users _ | GET_user _
  | GET_user_structures _ | GET_user_favorites _ => false
  end.

(** The routes served by a [get] method. *)
Definition is_GET (req : request) : bool :=
  match req with
  | GET_users | GET_user _ | GET_user_structures _ | GET_user_favorites _ => true
  | POST_users _ | PUT_user _ _ | DELETE_user _
  | POST_user_favorites _ _ | DELETE_user_favorite _ _ => false
  end.

(** ** Requests with every password blanked *)

Definition redact_payload (payload : gmap string string) : gmap string string :=
  alter (λ _, "") "password" payload.

Definition redact_request (req : request) : request :=
  match req with
  | POST_users payload => POST_users (redact_payload payload)
  | PUT_user user_id payload => PUT_user user_id (redact_payload payload)
  | _ => req
  end.

(** ** Computations that do not look at the caller

    A computation is blind to the identity when its result and the database
    it leaves are the same under any two token identities. *)

Definition identity_blind {A} (m : M A) : Prop :=
  ∀ i j clock s st, m (Ctx i clock s) st = m (Ctx j clock s) st.

(** ** Sample data

    Two users and one structure: the clinic belongs to alice (1) and is a
    favourite of bob (2). *)

Definition alice : User.row := User.Row "alice" "hash-of-alice" 100.
Definition bob : User.row := User.Row "bob" "hash-of-bob" 200.

Definition clinic : Structure.t :=
  Structure.Row (Some 1) {[2]} "medical_office" [("name", "Clinic")].

Definition sample_db : DB :=
  Db (<[1 := alice]> (<[2 := bob]> ∅)) (<[42 := clinic]> ∅) 3.

Definition as_user (a : Z) : context := Ctx (Some a) 1000 "NaCl".
Definition anonymous : context := Ctx None 1000 "NaCl".

(** Stand-ins for the parameters of the controller. *)
Definition sample_hash (salt password : string) : string :=
  "sha256$" +:+ salt +:+ "$" +:+ password.

Definition sample_get_structure (structure_id : Z)
    : M (option (Z * Structure.t)) :=
  λ _ st, (Return ((structure_id,.) <$> structures st !! structure_id), st).

(** A service module that, unlike [user_service], binds
    [add_favorite_to_user]: the function records the user in the structure's
    [favourites_of]. *)
Definition sample_add_favorite (user_id structure_id : Z) : M unit :=
  λ _ st,
    (Return (),
     Db (users st)
        (alter (λ s, Structure.Row (Structure.user_id s)
                       ({[user_id]} ∪ Structure.favourites_of s)
                       (Structure.polymorphic_identity s)
                       (Structure.subtype_columns s))
               structure_id (structures st))
        (users_id_seq st)).

Definition extended_service : gmap string attribute :=
  <["add_favorite_to_user" := Assoc sample_add_favorite]> user_service.

(** ** Properties *)

(** Unfolds the monad operations so that a handler run on a context and a
    database reduces to its result. *)
Ltac run_M :=
  unfold jwt_required, get_jwt_identity, abort, getattr, getitem,
         call_query, call_assoc, raise, ask;
  unfold mbind, mret, M_bind, M_ret; simpl.

Lemma owned_by_lookup uid ss sid s :
  owned_by uid ss !! sid = Some s ↔ ss !! sid = Some s ∧ Structure.user_id s = Some uid.
Proof. unfold owned_by. by rewrite map_lookup_filter_Some. Qed.

Lemma elem_of_owned uid ss sid s :
  ss !! sid = Some s →
  sid ∈ dom (owned_by uid ss) ↔ Structure.user_id s = Some uid.
Proof.
  intros Hs. rewrite elem_of_dom. split.
  - intros [s' Hs']. apply owned_by_lookup in Hs' as [Hs' Ho]. congruence.
  - intros Ho. exists s. by apply owned_by_lookup.
Qed.

(** Assigning to a user the structures it already owns changes nothing. *)
Lemma set_owned_own uid ss : set_owned uid (dom (owned_by uid ss)) ss = ss.
Proof.
  apply map_eq. intros sid. unfold set_owned. rewrite map_lookup_imap.
  destruct (ss !! sid) as [s|] eqn:Hs; simpl; [|done].
  f_equal. destruct s as [o f p c]; simpl.
  pose proof (elem_of_owned uid ss sid _ Hs) as Hin. simpl in Hin.
  f_equal. repeat case_decide; try done; try (by symmetry; apply Hin).
  - exfalso. tauto.
Qed.

Lemma get_user_run user_id ctx st :
  get_user user_id ctx st
  = (Return ((λ r, load user_id r st) <$> users st !! user_id), st).
Proof. reflexivity. Qed.

Lemma delete_user_absent user_id ctx st :
  users st !! user_id = None → delete_user user_id ctx st = (Return (), st).
Proof. intros H. unfold delete_user, get_user. run_M. by rewrite H. Qed.

Lemma delete_user_present user_id ctx st r :
  users st !! user_id = Some r →
  delete_user user_id ctx st = session_delete user_id ctx st.
Proof. intros H. unfold delete_user, get_user. run_M. by rewrite H. Qed.

(** *** Computations that do not look at the caller *)

Create HintDb blind.

Lemma blind_ret {A} (a : A) : identity_blind (mret a).
Proof. by intros i j clock s st. Qed.

Lemma blind_raise {A} e : identity_blind (@raise A e).
Proof. by intros i j clock s st. Qed.

Lemma blind_bind {A B} (m : M A) (k : A → M B) :
  identity_blind m → (∀ a, identity_blind (k a)) → identity_blind (m ≫= k).
Proof.
  intros Hm Hk i j clock s st. unfold mbind, M_bind.
  rewrite (Hm i j). destruct (m _ st) as [[a|e] st']; [apply Hk | done].
Qed.

Lemma blind_getitem {V} (d : gmap string V) key : identity_blind (getitem d key).
Proof. unfold getitem. destruct (d !! key); [apply blind_ret | apply blind_raise]. Qed.

Lemma blind_getattr {X} user (attr : User.t → option X) name :
  identity_blind (getattr user attr name).
Proof. destruct user; [apply blind_ret | apply blind_raise]. Qed.

Lemma blind_get_user user_id : identity_blind (get_user user_id).
Proof. by intros i j clock s st. Qed.

Lemma blind_set_password h password user :
  identity_blind (set_password h password user).
Proof. by intros i j clock s st. Qed.

Lemma blind_flush_insert user : identity_blind (flush_insert user).
Proof. by intros i j clock s st. Qed.

Lemma blind_update_user user : identity_blind (update_user user).
Proof.
  intros i j clock s st. unfold update_user, session_merge.
  destruct (User.id user ≫= _) as [[uid r]|]; [done|].
  apply (blind_bind (flush_insert user) (λ _, mret ()));
    [apply blind_flush_insert | intros; apply blind_ret].
Qed.

Lemma blind_call_assoc service name user_id structure_id :
  (∀ f, service !! name = Some (Assoc f) → identity_blind (f user_id structure_id)) →
  identity_blind (call_assoc service name user_id structure_id).
Proof.
  intros Hf. unfold call_assoc.
  destruct (service !! name) as [[f|f|]|]; auto using @blind_raise.
Qed.

#[global] Hint Resolve blind_ret blind_raise blind_getitem blind_getattr
  blind_get_user blind_set_password blind_flush_insert blind_update_user
  : blind.

(** Under a verified token the decorator runs the handler. *)
Lemma jwt_required_verified {A} (handler : M A) a clock s st :
  jwt_required handler (Ctx (Some a) clock s) st = handler (Ctx (Some a) clock s) st.
Proof. reflexivity. Qed.

Lemma jwt_required_blind {A} (handler : M A) a b clock s st :
  identity_blind handler →
  jwt_required handler (Ctx (Some a) clock s) st
  = jwt_required handler (Ctx (Some b) clock s) st.
Proof. intros H. rewrite !jwt_required_verified. apply H. Qed.

(** What the module [user_service] binds: the favourites query under the
    name [get_favourites_by_user], and none of the three names the
    favourites handlers ask for. *)
Lemma user_service_get_favourites_by_user :
  user_service !! "get_favourites_by_user" = Some (Query get_favourites_by_user).
Proof. reflexivity. Qed.

Lemma user_service_get_favorites_by_user :
  user_service !! "get_favorites_by_user" = None.
Proof. reflexivity. Qed.

Lemma user_service_add_favorite_to_user :
  user_service !! "add_favorite_to_user" = None.
Proof. reflexivity. Qed.

Lemma user_service_delete_favorite :
  user_service !! "delete_favorite" = None.
Proof. reflexivity. Qed.

(** X13. The service's favourites query returns, without writing, exactly
    the structures that count the user among [favourites_of], each once and
    as the full row of its concrete subtype. *)
Lemma get_favourites_by_user_spec user_id ctx st :
  ∃ rows, get_favourites_by_user user_id ctx st = (Return rows, st)
    ∧ NoDup rows
    ∧ ∀ sid s, (sid, s) ∈ rows
               ↔ structures st !! sid = Some s
                 ∧ user_id ∈ Structure.favourites_of s.
Proof.
  eexists. split; [reflexivity|]. split; [apply NoDup_map_to_list|].
  intros sid s. rewrite elem_of_map_to_list. unfold favourited_by.
  by rewrite map_lookup_filter_Some.
Qed.

Section Properties.

Context {geojson : Type}.
Variable structures_to_geojson : structs → geojson.
Variable get_structure : Z → M (option (Z * Structure.t)).
Variable generate_password_hash : string → string → string.


(** C1. Self-only deletions: a caller authenticated as [a] who asks to
    delete user [b], or a favourite of user [b], with [a ≠ b], is answered
    Unauthorized (401) and the database is left as it was, whatever the
    service module binds. *)
Theorem self_only_deletions service ctx a b favorite_id st :
  jwt_identity ctx = Some a → a ≠ b →
  UserController_delete (geojson := geojson) b ctx st = (Raise (HTTPException 401), st)
  ∧ FavoriteUserDeleteController_delete (geojson := geojson) service b favorite_id ctx st
    = (Raise (HTTPException 401), st)
  ∧ http_status (UserController_delete (geojson := geojson) b ctx st).1 = 401
  ∧ http_status (FavoriteUserDeleteController_delete (geojson := geojson) service b favorite_id ctx st).1 = 401.
Proof.
  intros Hid Hne.
  assert (Hu : UserController_delete (geojson := geojson) b ctx st = (Raise (HTTPException 401), st)).
  { unfold UserController_delete. run_M. rewrite Hid.
    case_decide as Hd; [done | exfalso; congruence]. }
  assert (Hf : FavoriteUserDeleteController_delete (geojson := geojson) service b favorite_id ctx st
               = (Raise (HTTPException 401), st)).
  { unfold FavoriteUserDeleteController_delete. run_M. rewrite Hid.
    case_decide as Hd; [congruence | done]. }
  rewrite Hu, Hf. done.
Qed.

(** The GET handler of a user passes the lookup result to the marshaller
    and answers 200, also when the lookup found nothing. *)
Lemma get_user_handler_absent user_id ctx st :
  users st !! user_id = None →
  get_user user_id ctx st = (Return None, st)
  ∧ UserController_get (geojson := geojson) user_id ctx st
    = (Return (Response (UserBody (UserJson None None None)) 200), st).
Proof.
  intros H. unfold UserController_get. rewrite get_user_run.
  run_M. by rewrite H.
Qed.

(** C7. [delete_user] is idempotent: it never fails, after it the user is
    gone, a second deletion of the same id changes nothing more, and on an
    id that has no user it leaves the database as it is. *)
Theorem delete_user_idempotent user_id ctx st :
  let st1 := (delete_user user_id ctx st).2 in
  (delete_user user_id ctx st).1 = Return ()
  ∧ users st1 !! user_id = None
  ∧ delete_user user_id ctx st1 = (Return (), st1)
  ∧ (users st !! user_id = None → st1 = st).
Proof.
  destruct (users st !! user_id) as [r|] eqn:Hu.
  - rewrite (delete_user_present _ _ _ _ Hu). simpl.
    assert (Hgone : users (session_delete user_id ctx st).2 !! user_id = None)
      by apply lookup_delete_eq.
    split_and!; [done | done | by apply delete_user_absent | done].
  - rewrite (delete_user_absent _ _ _ Hu). simpl.
    split_and!; [done | done | by apply delete_user_absent | done].
Qed.

(** C9. PUT on an id that has no user: with a verified token the handler
    returns no response at all.  It raises, [AttributeError] from reading
    [password_hash] off the absent lookup result when the payload has a
    username ([KeyError] before that when it has none), nothing is written,
    and the client sees a server error, not 404. *)
Theorem put_absent_user_raises payload user_id ctx st :
  is_Some (jwt_identity ctx) →
  users st !! user_id = None →
  UserController_put (geojson := geojson) generate_password_hash payload user_id ctx st
  = (Raise (match payload !! "username" with
            | Some _ => AttributeError "password_hash"
            | None => KeyError "username"
            end), st)
  ∧ http_status (UserController_put (geojson := geojson) generate_password_hash payload user_id ctx st).1 = 500.
Proof.
  intros [a Ha] Hu.
  assert (H : UserController_put (geojson := geojson) generate_password_hash payload user_id ctx st
              = (Raise (match payload !! "username" with
                        | Some _ => AttributeError "password_hash"
                        | None => KeyError "username"
                        end), st)).
  { unfold UserController_put, get_user. run_M. rewrite Ha, Hu. simpl.
    by destruct (payload !! "username"). }
  rewrite H. split; [done|]. simpl. by destruct (payload !! "username").
Qed.

(** C10. The update handler is not self-scoped: the identity in the token
    is never consulted, so two callers with verified tokens get the same
    result and leave the same database, for every target and payload. *)
Theorem put_ignores_caller payload user_id a b clock s st :
  UserController_put (geojson := geojson) generate_password_hash payload user_id (Ctx (Some a) clock s) st
  = UserController_put (geojson := geojson) generate_password_hash payload user_id (Ctx (Some b) clock s) st.
Proof.
  unfold UserController_put. apply jwt_required_blind.
  repeat (apply blind_bind; [auto with blind | intros]).
  - case_decide; [|auto with blind].
    apply blind_bind; [auto with blind | intros; auto with blind].
  - auto with blind.
Qed.

(** What [update_user] does to the instance the PUT handler builds for a
    stored user: the row keeps its key and [created_on], takes the given
    username and password hash, and the structures table is untouched. *)
Lemma update_user_rebuilt user_id name hash r ctx st :
  users st !! user_id = Some r →
  update_user (User.Obj (Some user_id) (Some name) (Some hash)
                        (Some (User.row_created_on r))
                        (Some (dom (owned_by user_id (structures st))))) ctx st
  = if decide (username_taken name (Some user_id) (users st))
    then (Raise IntegrityError, st)
    else (Return (),
          Db (<[user_id := User.Row name hash (User.row_created_on r)]> (users st))
             (structures st) (users_id_seq st)).
Proof.
  intros Hu. unfold update_user, session_merge. simpl. rewrite Hu. simpl.
  case_decide; [done|]. by rewrite set_owned_own.
Qed.

(** The PUT handler on a stored user, case by case. *)
Lemma put_user_run payload user_id ctx st r :
  users st !! user_id = Some r →
  UserController_put (geojson := geojson) generate_password_hash payload user_id ctx st
  = match jwt_identity ctx, payload !! "username" with
    | None, _ => (Raise NoAuthorizationError, st)
    | Some _, None => (Raise (KeyError "username"), st)
    | Some _, Some name =>
        let hash := match payload !! "password" with
                    | Some p => generate_password_hash (salt ctx) p
                    | None => User.row_password_hash r
                    end in
        if decide (username_taken name (Some user_id) (users st))
        then (Raise IntegrityError, st)
        else (Return (Response (UserBody (UserJson (Some user_id) (Some name)
                                            (Some (User.row_created_on r)))) 200),
              Db (<[user_id := User.Row name hash (User.row_created_on r)]> (users st))
                 (structures st) (users_id_seq st))
    end.
Proof.
  intros Hu. unfold UserController_put, jwt_required, get_user.
  run_M.
  destruct (jwt_identity ctx) as [a|]; [|done]. rewrite Hu. simpl.
  destruct (payload !! "username") as [name|] eqn:Hn; [|done]. simpl.
  case_decide as Hp.
  - apply elem_of_dom in Hp as [p Hp]. rewrite Hp. simpl.
    unfold set_password. simpl. rewrite (update_user_rebuilt _ _ _ _ _ _ Hu).
    by case_decide.
  - apply not_elem_of_dom in Hp. rewrite Hp.
    rewrite (update_user_rebuilt _ _ _ _ _ _ Hu). by case_decide.
Qed.

(** C5. Update of a stored user: whatever the request, afterwards the user
    is still stored under the same id with the same [created_on], and the
    structures table (owners and favourites) is as before; when the payload
    has no password the stored password hash is as before too. *)
Theorem put_preserves payload user_id ctx st r :
  users st !! user_id = Some r →
  ∃ r', users (UserController_put (geojson := geojson) generate_password_hash payload user_id ctx st).2 !! user_id = Some r'
    ∧ User.row_created_on r' = User.row_created_on r
    ∧ structures (UserController_put (geojson := geojson) generate_password_hash payload user_id ctx st).2 = structures st
    ∧ (payload !! "password" = None →
       User.row_password_hash r' = User.row_password_hash r).
Proof.
  intros Hu. rewrite (put_user_run _ _ _ _ _ Hu).
  destruct (jwt_identity ctx) as [a|]; [|by exists r].
  destruct (payload !! "username") as [name|]; [|by exists r].
  simpl. case_decide; simpl; [by exists r|].
  eexists. rewrite lookup_insert_eq. split_and!; [done..|].
  by intros ->.
Qed.

(** *** The favourites handlers on the module as it is *)

Lemma get_favorites_run user_id ctx st :
  FavoritesUserController_get structures_to_geojson user_service user_id ctx st
  = (Raise (AttributeError "get_favorites_by_user"), st).
Proof.
  unfold FavoritesUserController_get, call_query.
  by rewrite user_service_get_favorites_by_user.
Qed.

Lemma post_favorite_run payload user_id ctx st :
  FavoritesUserController_post structures_to_geojson get_structure user_service payload user_id ctx st
  = (Raise match jwt_identity ctx, payload !! "structure_id" with
           | None, _ => NoAuthorizationError
           | Some _, None => KeyError "structure_id"
           | Some _, Some _ => AttributeError "add_favorite_to_user"
           end, st).
Proof.
  unfold FavoritesUserController_post, call_assoc.
  rewrite user_service_add_favorite_to_user. run_M.
  destruct (jwt_identity ctx); [|done].
  by destruct (payload !! "structure_id").
Qed.

Lemma delete_favorite_run user_id favorite_id ctx st :
  FavoriteUserDeleteController_delete (geojson := geojson) user_service user_id favorite_id ctx st
  = (Raise match jwt_identity ctx with
           | None => NoAuthorizationError
           | Some a => if decide (user_id = a)
                       then AttributeError "delete_favorite"
                       else HTTPException 401
           end, st).
Proof.
  unfold FavoriteUserDeleteController_delete, call_assoc.
  rewrite user_service_delete_favorite.
  destruct ctx as [[a|] clock s]; run_M; [|done].
  destruct (decide (user_id = a)) as [->|Hne].
  - by rewrite decide_True.
  - rewrite decide_False; [done | congruence].
Qed.

(** The add-favourite handler under a verified token, step by step. *)
Lemma post_favorite_verified service payload user_id a clock s st :
  let ctx := Ctx (Some a) clock s in
  FavoritesUserController_post structures_to_geojson get_structure service payload user_id ctx st
  = match payload !! "structure_id" with
    | None => (Raise (KeyError "structure_id"), st)
    | Some sid =>
        match service !! "add_favorite_to_user" with
        | Some (Assoc add) =>
            match add user_id sid ctx st with
            | (Return _, st1) =>
                match get_structure sid ctx st1 with
                | (Return x, st2) =>
                    (Return (Response (FeatureBody
                               (structures_to_geojson (Instance x))) 200), st2)
                | (Raise e, st2) => (Raise e, st2)
                end
            | (Raise e, st1) => (Raise e, st1)
            end
        | Some _ => (Raise TypeError, st)
        | None => (Raise (AttributeError "add_favorite_to_user"), st)
        end
    end.
Proof.
  unfold FavoritesUserController_post. simpl. rewrite jwt_required_verified.
  run_M. destruct (payload !! "structure_id") as [sid|]; [|done]. simpl.
  by destruct (service !! "add_favorite_to_user") as [[f|add|]|].
Qed.

(** C8. The add-favourite handler asks for a verified token and nothing
    more.  Without a token it is refused before anything runs.  With one,
    the caller's identity plays no part: as long as what the module binds to
    [add_favorite_to_user] and [get_structure] do not consult it, any two
    callers get the same result and leave the same database.  The handler
    raises no HTTP error of its own, and when the bound function and the
    lookup return, the answer is the looked-up structure serialised as a
    feature. *)
Theorem add_favorite_not_self_scoped service payload user_id :
  (∀ sid add, payload !! "structure_id" = Some sid →
              service !! "add_favorite_to_user" = Some (Assoc add) →
              identity_blind (add user_id sid)) →
  (∀ sid, identity_blind (get_structure sid)) →
  (∀ clock s st,
     FavoritesUserController_post structures_to_geojson get_structure service payload user_id (Ctx None clock s) st
     = (Raise NoAuthorizationError, st))
  ∧ (∀ a b clock s st,
       FavoritesUserController_post structures_to_geojson get_structure service payload user_id (Ctx (Some a) clock s) st
       = FavoritesUserController_post structures_to_geojson get_structure service payload user_id (Ctx (Some b) clock s) st)
  ∧ (∀ a clock s st code st',
       FavoritesUserController_post structures_to_geojson get_structure service payload user_id (Ctx (Some a) clock s) st
       = (Raise (HTTPException code), st') →
       ∃ sid st0,
         (∃ add, service !! "add_favorite_to_user" = Some (Assoc add)
                 ∧ add user_id sid (Ctx (Some a) clock s) st0
                   = (Raise (HTTPException code), st'))
         ∨ get_structure sid (Ctx (Some a) clock s) st0
           = (Raise (HTTPException code), st'))
  ∧ (∀ a clock s st sid add st1 x st2,
       payload !! "structure_id" = Some sid →
       service !! "add_favorite_to_user" = Some (Assoc add) →
       add user_id sid (Ctx (Some a) clock s) st = (Return (), st1) →
       get_structure sid (Ctx (Some a) clock s) st1 = (Return x, st2) →
       FavoritesUserController_post structures_to_geojson get_structure service payload user_id (Ctx (Some a) clock s) st
       = (Return (Response (FeatureBody (structures_to_geojson (Instance x))) 200),
          st2)).
Proof.
  intros Hadd Hget. split_and!.
  - reflexivity.
  - intros a b clock s st.
    rewrite (post_favorite_verified service payload user_id a),
            (post_favorite_verified service payload user_id b). simpl.
    destruct (payload !! "structure_id") as [sid|] eqn:Hp; [|done].
    destruct (service !! "add_favorite_to_user") as [[f|add|]|] eqn:Hs; try done.
    rewrite (Hadd sid add eq_refl eq_refl (Some a) (Some b)).
    destruct (add _ _ _ _) as [[[]|e] st1]; [|done].
    by rewrite (Hget sid (Some a) (Some b)).
  - intros a clock s st code st'.
    rewrite (post_favorite_verified service payload user_id a). simpl.
    destruct (payload !! "structure_id") as [sid|]; [|done].
    destruct (service !! "add_favorite_to_user") as [[f|add|]|]; try done.
    destruct (add _ _ _ _) as [[[]|e] st1] eqn:Ha.
    + destruct (get_structure _ _ _) as [[x|e] st2] eqn:Hg; [done|].
      intros [= -> ->]. exists sid, st1. by right.
    + intros [= -> ->]. exists sid, st. left. by exists add.
  - intros a clock s st sid add st1 x st2 Hp Hs Ha Hg.
    rewrite (post_favorite_verified service payload user_id a). simpl.
    by rewrite Hp, Hs, Ha, Hg.
Qed.

End Properties.

(** *** What a response can depend on *)

Lemma public_lookup st1 st2 uid :
  public st1 = public st2 →
  redact_row <$> users st1 !! uid = redact_row <$> users st2 !! uid.
Proof. intros [= H _ _]. by rewrite <-!lookup_fmap, H. Qed.

Lemma username_taken_redact name except us :
  username_taken name except us
  ↔ username_taken name except (redact_row <$> us).
Proof.
  split.
  - intros (uid & r & Hl & Hn & He). exists uid, (redact_row r).
    rewrite lookup_fmap, Hl. done.
  - intros (uid & r & Hl & Hn & He). rewrite lookup_fmap in Hl.
    destruct (us !! uid) as [r0|] eqn:Hr; [|done].
    injection Hl as <-. by exists uid, r0.
Qed.

Lemma username_taken_public name except st1 st2 :
  public st1 = public st2 →
  username_taken name except (users st1) ↔ username_taken name except (users st2).
Proof.
  intros [= H _ _]. by rewrite (username_taken_redact _ _ (users st1)), H,
    <-username_taken_redact.
Qed.

Lemma is_Some_public st1 st2 uid :
  public st1 = public st2 →
  is_Some (users st1 !! uid) ↔ is_Some (users st2 !! uid).
Proof.
  intros H. apply (public_lookup _ _ uid) in H.
  rewrite <-(fmap_is_Some redact_row (users st1 !! uid)), H.
  apply fmap_is_Some.
Qed.

Section Exposure.

Context {geojson : Type}.
Variable structures_to_geojson : structs → geojson.
Variable get_structure : Z → M (option (Z * Structure.t)).
Variable generate_password_hash : string → string → string.

Abbreviation handle :=
  (@dispatch geojson structures_to_geojson get_structure
             generate_password_hash user_service).
Abbreviation serve_all :=
  (@serve geojson structures_to_geojson get_structure
          generate_password_hash user_service).

(** Signup, case by case: the row that is stored holds the hash of the
    password, and the response holds id, username and creation date. *)
Lemma post_users_run payload ctx st :
  handle (POST_users payload) ctx st
  = match payload !! "username", payload !! "password" with
    | None, _ => (Raise (KeyError "username"), st)
    | Some _, None => (Raise (KeyError "password"), st)
    | Some name, Some p =>
        let uid := users_id_seq st in
        if decide (is_Some (users st !! uid)
                   ∨ username_taken name None (users st))
        then (Raise IntegrityError, st)
        else (Return (Response (UserBody (UserJson (Some uid) (Some name)
                                            (Some (now ctx)))) 201),
              Db (<[uid := User.Row name (generate_password_hash (salt ctx) p)
                                    (now ctx)]> (users st))
                 (structures st) (uid + 1))
    end.
Proof.
  simpl. unfold UserListController_post, add_user, flush_insert, set_password.
  run_M.
  destruct (payload !! "username") as [name|]; [|done]. simpl.
  destruct (payload !! "password") as [p|]; [|done]. simpl.
  by case_decide.
Qed.

Lemma get_users_run ctx st :
  handle GET_users ctx st
  = (Return (Response (UserListBody
       ((λ kv, UserJson (Some kv.1) (Some (User.row_username kv.2))
                        (Some (User.row_created_on kv.2)))
        <$> map_to_list (redact_row <$> users st))) 200), st).
Proof.
  simpl. unfold UserListController_get, get_all_user. run_M.
  rewrite map_to_list_fmap, <-!list_fmap_compose.
  reflexivity.
Qed.

Lemma get_user_handler_run user_id ctx st :
  handle (GET_user user_id) ctx st
  = (Return (Response (UserBody
       match redact_row <$> users st !! user_id with
       | Some r => UserJson (Some user_id) (Some (User.row_username r))
                            (Some (User.row_created_on r))
       | None => UserJson None None None
       end) 200), st).
Proof.
  simpl. unfold UserController_get, get_user. run_M.
  by destruct (users st !! user_id).
Qed.

Lemma put_user_absent_run payload user_id ctx st :
  users st !! user_id = None →
  handle (PUT_user user_id payload) ctx st
  = (Raise match jwt_identity ctx, payload !! "username" with
           | None, _ => NoAuthorizationError
           | Some _, None => KeyError "username"
           | Some _, Some _ => AttributeError "password_hash"
           end, st).
Proof.
  intros Hu. simpl. unfold UserController_put, get_user.
  destruct ctx as [[a|] clock s]; run_M; [|done]. rewrite Hu. simpl.
  by destruct (payload !! "username").
Qed.

Lemma delete_user_handler_run user_id ctx st :
  handle (DELETE_user user_id) ctx st
  = match jwt_identity ctx with
    | None => (Raise NoAuthorizationError, st)
    | Some a =>
        if decide (user_id = a)
        then (Return (Response EmptyBody 204),
              match users st !! user_id with
              | Some _ => (session_delete user_id ctx st).2
              | None => st
              end)
        else (Raise (HTTPException 401), st)
    end.
Proof.
  simpl. unfold UserController_delete, delete_user, get_user.
  destruct ctx as [[a|] clock s]; run_M; [|done].
  destruct (decide (user_id = a)) as [->|Hne].
  - rewrite decide_False by (intros H; by apply H).
    simpl. by destruct (users st !! a).
  - rewrite decide_True by congruence. done.
Qed.

Lemma session_delete_public user_id ctx st1 st2 :
  public st1 = public st2 →
  public (session_delete user_id ctx st1).2
  = public (session_delete user_id ctx st2).2.
Proof.
  intros [= Hu Hs Hq]. unfold public. simpl.
  by rewrite !fmap_delete, Hu, Hs, Hq.
Qed.

(** One request served on two databases with the same public view: the two
    responses are equal and the two databases still have the same public
    view. *)
Lemma handle_public req ctx st1 st2 :
  public st1 = public st2 →
  (handle req ctx st1).1 = (handle req ctx st2).1
  ∧ public (handle req ctx st1).2 = public (handle req ctx st2).2.
Proof.
  intros Hpub. pose proof Hpub as [= Hu Hs Hq].
  destruct req as [|payload|user_id|user_id payload|user_id|user_id|user_id
                   |user_id payload|user_id favorite_id].
  - rewrite !get_users_run. simpl. by rewrite Hu.
  - rewrite !post_users_run.
    destruct (payload !! "username") as [name|]; [|done].
    destruct (payload !! "password") as [p|]; [|done].
    simpl. rewrite Hq.
    rewrite (decide_ext _ (is_Some (users st2 !! users_id_seq st2)
                           ∨ username_taken name None (users st2)))
      by (by rewrite (is_Some_public st1 st2), (username_taken_public _ _ st1 st2)).
    case_decide; simpl; [done|]. split; [done|].
    unfold public; simpl. by rewrite !fmap_insert, Hu, Hs.
  - rewrite !get_user_handler_run. simpl.
    by rewrite (public_lookup st1 st2).
  - pose proof (public_lookup st1 st2 user_id Hpub) as Hrow.
    destruct (users st1 !! user_id) as [r1|] eqn:H1;
      destruct (users st2 !! user_id) as [r2|] eqn:H2; try done.
    + injection Hrow as Hname Hdate. simpl.
      rewrite (put_user_run generate_password_hash _ _ _ _ _ H1),
              (put_user_run generate_password_hash _ _ _ _ _ H2).
      destruct (jwt_identity ctx) as [a|]; [|done].
      destruct (payload !! "username") as [name|]; [|done]. simpl.
      rewrite (decide_ext _ (username_taken name (Some user_id) (users st2)))
        by (by apply username_taken_public).
      case_decide; simpl; [done|]. rewrite Hdate. split; [done|].
      unfold public; simpl. by rewrite !fmap_insert, Hu, Hs, Hq.
    + by rewrite !put_user_absent_run.
  - rewrite !delete_user_handler_run.
    destruct (jwt_identity ctx) as [a|]; [|done].
    case_decide; [|done]. simpl. split; [done|].
    pose proof (public_lookup st1 st2 user_id Hpub) as Hrow.
    destruct (users st1 !! user_id) as [r1|] eqn:H1;
      destruct (users st2 !! user_id) as [r2|] eqn:H2; try done.
    by apply (session_delete_public _ ctx).
  - simpl. unfold StructureUserController_get, get_all_structure_by_user.
    run_M. by rewrite Hs.
  - simpl. by rewrite !get_favorites_run.
  - simpl. by rewrite !post_favorite_run.
  - simpl. by rewrite !delete_favorite_run.
Qed.

Lemma serve_public reqs st1 st2 :
  public st1 = public st2 →
  (serve_all reqs st1).1 = (serve_all reqs st2).1.
Proof.
  revert st1 st2. induction reqs as [|[ctx req] rest IH]; intros st1 st2 Hpub.
  - done.
  - simpl. destruct (handle_public req ctx st1 st2 Hpub) as [Ho Hst].
    destruct (handle req ctx st1) as [o1 st1'], (handle req ctx st2) as [o2 st2'].
    simpl in *. specialize (IH st1' st2' Hst).
    destruct (serve_all rest st1') as [os1 ?], (serve_all rest st2') as [os2 ?].
    simpl in *. congruence.
Qed.

(** C2. Signup stores the hash of the password, never the password, and
    answers with id, username and creation date only; and nothing the
    interface ever answers afterwards depends on the password: served the
    same requests, a database where the user signed up with [p] and one where
    the user signed up with [p'] give the same responses, starting with the
    response to the signup itself. *)
Theorem signup_password_not_exposed payload p p' ctx later st :
  dispatch structures_to_geojson get_structure generate_password_hash
    user_service (POST_users (<["password" := p]> payload)) ctx st
  = match payload !! "username" with
    | None => (Raise (KeyError "username"), st)
    | Some name =>
        let uid := users_id_seq st in
        if decide (is_Some (users st !! uid)
                   ∨ username_taken name None (users st))
        then (Raise IntegrityError, st)
        else (Return (Response (UserBody (UserJson (Some uid) (Some name)
                                            (Some (now ctx)))) 201),
              Db (<[uid := User.Row name (generate_password_hash (salt ctx) p)
                                    (now ctx)]> (users st))
                 (structures st) (uid + 1))
    end
  ∧ (serve structures_to_geojson get_structure generate_password_hash
        user_service
        ((ctx, POST_users (<["password" := p]> payload)) :: later) st).1
    = (serve structures_to_geojson get_structure generate_password_hash
         user_service
         ((ctx, POST_users (<["password" := p']> payload)) :: later) st).1.
Proof.
  assert (Hrun : ∀ q,
    handle (POST_users (<["password" := q]> payload)) ctx st
    = match payload !! "username" with
      | None => (Raise (KeyError "username"), st)
      | Some name =>
          let uid := users_id_seq st in
          if decide (is_Some (users st !! uid)
                     ∨ username_taken name None (users st))
          then (Raise IntegrityError, st)
          else (Return (Response (UserBody (UserJson (Some uid) (Some name)
                                              (Some (now ctx)))) 201),
                Db (<[uid := User.Row name (generate_password_hash (salt ctx) q)
                                      (now ctx)]> (users st))
                   (structures st) (uid + 1))
      end).
  { intros q. rewrite post_users_run.
    rewrite lookup_insert_ne by done. rewrite lookup_insert_eq.
    by destruct (payload !! "username"). }
  split; [apply Hrun|].
  cbn [serve]. rewrite (Hrun p), (Hrun p').
  assert (Hnext : ∀ st1 st2 o, public st1 = public st2 →
            (let (os, st'') := serve_all later st1 in (o :: os, st'')).1
            = (let (os, st'') := serve_all later st2 in (o :: os, st'')).1).
  { intros st1 st2 o Hpub. pose proof (serve_public later st1 st2 Hpub) as H.
    destruct (serve_all later st1), (serve_all later st2). simpl in *.
    by rewrite H. }
  destruct (payload !! "username") as [name|]; [|by apply Hnext].
  simpl. case_decide; [by apply Hnext|].
  apply Hnext. unfold public; simpl. by rewrite !fmap_insert.
Qed.

End Exposure.

(** ** The handlers on the sample data *)

(** C6. GET of user 7, who does not exist: the lookup returns the absent
    value without failing, and the handler answers 200 with a user whose
    three fields are null; it does not answer 404. *)
Example get_absent_user_answers_200 :
  get_user 7 anonymous sample_db = (Return None, sample_db)
  ∧ UserController_get (geojson := structs) 7 anonymous sample_db
    = (Return (Response (UserBody (UserJson None None None)) 200), sample_db)
  ∧ http_status
      (UserController_get (geojson := structs) 7 anonymous sample_db).1 = 200.
Proof.
  assert (Habsent : users sample_db !! 7 = None) by reflexivity.
  destruct (get_user_handler_absent (geojson := structs) 7 anonymous
              sample_db Habsent) as [Hget Hhandler].
  by rewrite Hget, Hhandler.
Qed.

(** C4. GET of the favourites of user 2, who has the clinic (42) as a
    favourite: the handler asks the service module for
    [get_favorites_by_user], the module only has [get_favourites_by_user],
    so the handler raises [AttributeError] and the client sees a server
    error; the service function itself returns the clinic. *)
Example get_favorites_of_2_raises :
  FavoritesUserController_get (geojson := structs) id user_service 2
    anonymous sample_db
  = (Raise (AttributeError "get_favorites_by_user"), sample_db)
  ∧ http_status
      (FavoritesUserController_get (geojson := structs) id user_service 2
         anonymous sample_db).1 = 500
  ∧ get_favourites_by_user 2 anonymous sample_db
    = (Return [(42, clinic)], sample_db).
Proof.
  rewrite get_favorites_run. split_and!; [done | done |].
  vm_compute. reflexivity.
Qed.

(** C3. User 1 adds structure 42 to their favourites: the handler asks the
    service module for [add_favorite_to_user], which the module does not
    bind, so it raises [AttributeError] and the database is as before; the
    favourites of user 1 are still empty.  Removing a favourite fails the
    same way on [delete_favorite], and the favourite stays. *)
Example add_favorite_1_42_raises :
  FavoritesUserController_post (geojson := structs) id sample_get_structure
    user_service {["structure_id" := 42]} 1 (as_user 1) sample_db
  = (Raise (AttributeError "add_favorite_to_user"), sample_db)
  ∧ get_favourites_by_user 1 (as_user 1) sample_db = (Return [], sample_db)
  ∧ FavoriteUserDeleteController_delete (geojson := structs) user_service
      2 42 (as_user 2) sample_db
    = (Raise (AttributeError "delete_favorite"), sample_db)
  ∧ get_favourites_by_user 2 (as_user 2) sample_db
    = (Return [(42, clinic)], sample_db).
Proof.
  rewrite post_favorite_run, delete_favorite_run. split_and!.
  - reflexivity.
  - vm_compute. reflexivity.
  - reflexivity.
  - vm_compute. reflexivity.
Qed.

(** User 2, with a verified token, asks to delete user 1 and the favourite
    42 of user 1. *)
Lemma self_only_deletions_witness :
  jwt_identity (as_user 2) = Some 2
  ∧ 2 ≠ 1
  ∧ UserController_delete (geojson := structs) 1 (as_user 2) sample_db
    = (Raise (HTTPException 401), sample_db)
  ∧ FavoriteUserDeleteController_delete (geojson := structs) user_service
      1 42 (as_user 2) sample_db
    = (Raise (HTTPException 401), sample_db).
Proof.
  split; [reflexivity|]. split; [lia|].
  destruct (self_only_deletions (geojson := structs) user_service (as_user 2)
              2 1 42 sample_db eq_refl ltac:(lia)) as (Hu & Hf & _).
  exact (conj Hu Hf).
Defined.

(** User 2 renames user 1 without giving a password. *)
Lemma put_preserves_witness :
  users sample_db !! 1 = Some alice
  ∧ ∃ r',
      users (UserController_put (geojson := structs) sample_hash
               {["username" := "alicia"]} 1 (as_user 2) sample_db).2 !! 1
      = Some r'
      ∧ User.row_created_on r' = User.row_created_on alice
      ∧ structures (UserController_put (geojson := structs) sample_hash
                      {["username" := "alicia"]} 1 (as_user 2) sample_db).2
        = structures sample_db
      ∧ (({["username" := "alicia"]} : gmap string string) !! "password" = None →
         User.row_password_hash r' = User.row_password_hash alice).
Proof.
  split; [reflexivity|].
  exact (put_preserves (geojson := structs) sample_hash
           {["username" := "alicia"]} 1 (as_user 2) sample_db alice eq_refl).
Defined.

(** The same update, spelled out: the row is renamed, hash and date stay. *)
Example put_renames_alice :
  UserController_put (geojson := structs) sample_hash
    {["username" := "alicia"]} 1 (as_user 2) sample_db
  = (Return (Response (UserBody (UserJson (Some 1) (Some "alicia") (Some 100)))
               200),
     Db (<[1 := User.Row "alicia" "hash-of-alice" 100]> (users sample_db))
        (structures sample_db) 3).
Proof.
  rewrite (put_user_run sample_hash _ 1 _ sample_db alice eq_refl).
  cbn [jwt_identity as_user]. rewrite lookup_singleton_eq.
  rewrite lookup_singleton_ne by done. cbn zeta.
  rewrite decide_False; [done|].
  intros (uid & r & Hl & Hn & He).
  unfold sample_db in Hl; simpl in Hl.
  destruct (decide (uid = 1)) as [->|]; [done|].
  rewrite lookup_insert_ne in Hl by done.
  destruct (decide (uid = 2)) as [->|].
  - rewrite lookup_insert_eq in Hl. by injection Hl as <-.
  - by rewrite lookup_insert_ne in Hl.
Qed.

(** Deleting user 7, who does not exist. *)
Lemma delete_user_idempotent_witness :
  users sample_db !! 7 = None
  ∧ (delete_user 7 (as_user 7) sample_db).2 = sample_db.
Proof.
  split; [reflexivity|].
  exact (proj2 (proj2 (proj2 (delete_user_idempotent 7 (as_user 7) sample_db)))
           eq_refl).
Defined.

(** Deleting bob (2): the row goes and the clinic loses its favourite. *)
Example delete_bob :
  delete_user 2 (as_user 2) sample_db
  = (Return (),
     Db (<[1 := alice]> ∅)
        (<[42 := Structure.Row (Some 1) ∅ "medical_office" [("name", "Clinic")]]> ∅)
        3).
Proof.
  rewrite (delete_user_present 2 _ sample_db bob eq_refl).
  vm_compute. reflexivity.
Qed.

(** User 1 updates user 7, who does not exist. *)
Lemma put_absent_user_raises_witness :
  is_Some (jwt_identity (as_user 1))
  ∧ users sample_db !! 7 = None
  ∧ UserController_put (geojson := structs) sample_hash
      {["username" := "eve"]} 7 (as_user 1) sample_db
    = (Raise (AttributeError "password_hash"), sample_db).
Proof.
  split; [by exists 1|]. split; [reflexivity|].
  exact (proj1 (put_absent_user_raises (geojson := structs) sample_hash
                  {["username" := "eve"]} 7 (as_user 1) sample_db
                  (ex_intro _ 1 eq_refl) eq_refl)).
Defined.

(** The add-favourite handler over a module that binds
    [add_favorite_to_user]: user 2, with a verified token, adds the clinic to
    the favourites of user 1, and gets what user 1 would get. *)
Lemma add_favorite_not_self_scoped_witness :
  (∀ sid add,
     ({["structure_id" := 42]} : gmap string Z) !! "structure_id" = Some sid →
     extended_service !! "add_favorite_to_user" = Some (Assoc add) →
     identity_blind (add 1 sid))
  ∧ (∀ sid, identity_blind (sample_get_structure sid))
  ∧ FavoritesUserController_post (geojson := structs) id sample_get_structure
      extended_service {["structure_id" := 42]} 1 (as_user 2) sample_db
    = FavoritesUserController_post (geojson := structs) id sample_get_structure
        extended_service {["structure_id" := 42]} 1 (as_user 1) sample_db
  ∧ FavoritesUserController_post (geojson := structs) id sample_get_structure
      extended_service {["structure_id" := 42]} 1 (as_user 2) sample_db
    = (Return (Response (FeatureBody (Instance (Some (42,
                 Structure.Row (Some 1) ({[1]} ∪ {[2]}) "medical_office"
                               [("name", "Clinic")])))) 200),
       (sample_add_favorite 1 42 (as_user 2) sample_db).2).
Proof.
  assert (Hadd : ∀ sid add,
            ({["structure_id" := 42]} : gmap string Z) !! "structure_id" = Some sid →
            extended_service !! "add_favorite_to_user" = Some (Assoc add) →
            identity_blind (add 1 sid)).
  { intros sid add _ Hs. unfold extended_service in Hs.
    rewrite lookup_insert_eq in Hs. injection Hs as <-.
    intros i j clock s st. reflexivity. }
  assert (Hget : ∀ sid, identity_blind (sample_get_structure sid)).
  { intros sid i j clock s st. reflexivity. }
  destruct (add_favorite_not_self_scoped (geojson := structs) id
              sample_get_structure extended_service {["structure_id" := 42]} 1
              Hadd Hget) as (_ & Hsame & _ & Hok).
  split; [exact Hadd|]. split; [exact Hget|]. split.
  - exact (Hsame 2 1 1000 "NaCl" sample_db).
  - exact (Hok 2 1000 "NaCl" sample_db 42 sample_add_favorite
             (sample_add_favorite 1 42 (as_user 2) sample_db).2
             (Some (42, Structure.Row (Some 1) ({[1]} ∪ {[2]}) "medical_office"
                                      [("name", "Clinic")]))
             (sample_add_favorite 1 42 (as_user 2) sample_db).2
             eq_refl eq_refl eq_refl eq_refl).
Defined.

(** On the module as it is, the add-favourite handler raises
    [AttributeError] for user 2 as for user 1, and never answers 401 to a
    verified caller. *)
Example add_favorite_as_2_raises :
  FavoritesUserController_post (geojson := structs) id sample_get_structure
    user_service {["structure_id" := 42]} 1 (as_user 2) sample_db
  = (Raise (AttributeError "add_favorite_to_user"), sample_db).
Proof. by rewrite post_favorite_run. Qed.

(** Signup of carol on the sample data, then the listing: the stored row
    holds the hash, the responses hold no password. *)
Example signup_carol :
  serve (geojson := structs) id sample_get_structure sample_hash user_service
    [(anonymous, POST_users (<["password" := "s3cret"]> {["username" := "carol"]}));
     (anonymous, GET_user 3)] sample_db
  = ([Return (Response (UserBody (UserJson (Some 3) (Some "carol") (Some 1000))) 201);
      Return (Response (UserBody (UserJson (Some 3) (Some "carol") (Some 1000))) 200)],
     Db (<[3 := User.Row "carol" "sha256$NaCl$s3cret" 1000]> (users sample_db))
        (structures sample_db) 4).
Proof. vm_compute. reflexivity. Qed.

(** ** Further properties of the service and of the handlers *)


Lemma redact_payload_username p1 p2 :
  redact_payload p1 = redact_payload p2 →
  p1 !! "username" = p2 !! "username".
Proof.
  intros H. apply (f_equal (λ m, m !! "username")) in H.
  unfold redact_payload in H. by rewrite !lookup_alter_ne in H.
Qed.

Lemma redact_payload_password p1 p2 :
  redact_payload p1 = redact_payload p2 →
  (p1 !! "password" = None ∧ p2 !! "password" = None)
  ∨ (∃ x y, p1 !! "password" = Some x ∧ p2 !! "password" = Some y).
Proof.
  intros H. apply (f_equal (λ m, m !! "password")) in H.
  unfold redact_payload in H. rewrite !lookup_alter_eq in H.
  destruct (p1 !! "password") as [x|], (p2 !! "password") as [y|];
    try done; [right; eauto | by left].
Qed.


Section Coverage.

Context {geojson : Type}.
Variable structures_to_geojson : structs → geojson.
Variable get_structure : Z → M (option (Z * Structure.t)).
Variable generate_password_hash : string → string → string.

(** X1. A route either demands a token or ignores it.  The four routes
    decorated with [@jwt_required] refuse a request without a token before
    anything runs, whatever the service module binds, and write nothing.
    The other five answer the same, and leave the same database, whatever
    the token says and whether there is one at all. *)
Theorem token_guard service req i j clock s st :
  if requires_token req
  then dispatch structures_to_geojson get_structure generate_password_hash
         service req (Ctx None clock s) st
       = (Raise NoAuthorizationError, st)
  else dispatch structures_to_geojson get_structure generate_password_hash
         user_service req (Ctx i clock s) st
       = dispatch structures_to_geojson get_structure generate_password_hash
           user_service req (Ctx j clock s) st.
Proof.
  destruct req as [|payload| | | | | | |]; try reflexivity.
  assert (Hblind : identity_blind
            (UserListController_post (geojson := geojson)
               generate_password_hash payload)).
  { unfold UserListController_post, add_user.
    repeat (apply blind_bind; [auto with blind | intros]).
    auto with blind. }
  apply Hblind.
Qed.

(** X2. The GET routes only read: whatever they answer, the database after
    the request is the database before it. *)
Theorem get_routes_read_only req ctx st :
  is_GET req = true →
  (dispatch structures_to_geojson get_structure generate_password_hash
     user_service req ctx st).2 = st.
Proof.
  destruct req; try discriminate; intros _; reflexivity.
Qed.

(** X3. The listing is complete and has no repetition: it answers 200
    with one entry per stored user, an entry with id, username and creation
    date is in it exactly when a user with that id, username and date is
    stored, and no id appears twice. *)
Theorem list_users_complete ctx st :
  ∃ js,
    UserListController_get (geojson := geojson) ctx st
    = (Return (Response (UserListBody js) 200), st)
    ∧ length js = size (users st)
    ∧ NoDup (json_id <$> js)
    ∧ ∀ uid name date,
        UserJson (Some uid) (Some name) (Some date) ∈ js
        ↔ ∃ r, users st !! uid = Some r
               ∧ User.row_username r = name ∧ User.row_created_on r = date.
Proof.
  exists ((λ kv, UserJson (Some kv.1) (Some (User.row_username kv.2))
                          (Some (User.row_created_on kv.2)))
          <$> map_to_list (users st)).
  split_and!.
  - unfold UserListController_get, get_all_user. run_M.
    by rewrite <-list_fmap_compose.
  - by rewrite length_fmap, length_map_to_list.
  - rewrite <-list_fmap_compose.
    rewrite (list_fmap_ext _ (Some ∘ fst) (map_to_list (users st)))
      by (by intros ? []).
    rewrite list_fmap_compose. apply (NoDup_fmap_2 Some).
    apply NoDup_fst_map_to_list.
  - intros uid name date. rewrite list_elem_of_fmap. split.
    + intros ([uid' r] & [= -> -> ->] & Hin).
      apply elem_of_map_to_list in Hin. by exists r.
    + intros (r & Hl & <- & <-). exists (uid, r).
      split; [done | by apply elem_of_map_to_list].
Qed.

(** X4. The structures of a user: the service returns, without writing,
    exactly the rows of the structures table whose [user_id] is the user,
    each once and whole, and the handler answers 200 with their GeoJSON
    serialisation as a feature collection. *)
Theorem structures_of_user user_id ctx st :
  ∃ rows,
    get_all_structure_by_user user_id ctx st = (Return rows, st)
    ∧ NoDup rows
    ∧ (∀ sid s, (sid, s) ∈ rows
                ↔ structures st !! sid = Some s
                  ∧ Structure.user_id s = Some user_id)
    ∧ StructureUserController_get structures_to_geojson user_id ctx st
      = (Return (Response (FeatureCollectionBody
                             (structures_to_geojson (Rows rows))) 200), st).
Proof.
  eexists. split; [reflexivity|]. split_and!.
  - apply NoDup_map_to_list.
  - intros sid s. rewrite elem_of_map_to_list. apply owned_by_lookup.
  - reflexivity.
Qed.

(** X5. Signup round trip.  When signup answers, the answer is 201 with a
    new id, the username of the payload and the clock as creation date; no
    user was stored under that id before; the only change to the database is
    the new row, which holds the hash of the payload's password; and a GET
    of the new id, by anyone, answers 200 with the same body. *)
Theorem signup_then_get payload ctx st r st' :
  UserListController_post (geojson := geojson) generate_password_hash
    payload ctx st = (Return r, st') →
  ∃ uid name p,
    payload !! "username" = Some name
    ∧ payload !! "password" = Some p
    ∧ r = Response (UserBody (UserJson (Some uid) (Some name)
                                (Some (now ctx)))) 201
    ∧ users st !! uid = None
    ∧ users st'
      = <[uid := User.Row name (generate_password_hash (salt ctx) p) (now ctx)]>
          (users st)
    ∧ structures st' = structures st
    ∧ ∀ ctx', UserController_get (geojson := geojson) uid ctx' st'
              = (Return (Response (resp_body r) 200), st').
Proof.
  intros H.
  pose proof (post_users_run structures_to_geojson get_structure
                generate_password_hash payload ctx st) as Hrun.
  cbn [dispatch] in Hrun. rewrite H in Hrun.
  destruct (payload !! "username") as [name|]; [|done].
  destruct (payload !! "password") as [p|]; [|done].
  cbn zeta in Hrun. case_decide as Hfree; [done|].
  injection Hrun as -> ->.
  exists (users_id_seq st), name, p. split_and!; try done.
  - apply eq_None_not_Some. tauto.
  - intros ctx'. unfold UserController_get, get_user. run_M.
    by rewrite lookup_insert_eq.
Qed.

(** X6. A signup that fails writes nothing: the handler raises
    [KeyError] for a payload without username or password, or the
    [IntegrityError] of the insert, and the database is as before. *)
Theorem signup_failure_writes_nothing payload ctx st e st' :
  UserListController_post (geojson := geojson) generate_password_hash
    payload ctx st = (Raise e, st') →
  st' = st
  ∧ (e = KeyError "username" ∨ e = KeyError "password" ∨ e = IntegrityError).
Proof.
  intros H.
  pose proof (post_users_run structures_to_geojson get_structure
                generate_password_hash payload ctx st) as Hrun.
  cbn [dispatch] in Hrun. rewrite H in Hrun.
  destruct (payload !! "username") as [name|];
    [|injection Hrun as -> ->; auto].
  destruct (payload !! "password") as [p|];
    [|injection Hrun as -> ->; auto].
  cbn zeta in Hrun. case_decide; [|done].
  injection Hrun as -> ->. auto.
Qed.

(** X7. A user deleting itself is always answered 204, also when no user
    is stored under the id.  Afterwards no user is stored under the id,
    every other user is stored as before, and no structure has left the
    structures table. *)
Theorem delete_self user_id ctx st :
  jwt_identity ctx = Some user_id →
  ∃ st',
    UserController_delete (geojson := geojson) user_id ctx st
    = (Return (Response EmptyBody 204), st')
    ∧ users st' !! user_id = None
    ∧ (∀ uid, uid ≠ user_id → users st' !! uid = users st !! uid)
    ∧ dom (structures st') = dom (structures st).
Proof.
  intros Hid.
  pose proof (delete_user_handler_run structures_to_geojson get_structure
                generate_password_hash user_id ctx st) as Hrun.
  cbn [dispatch] in Hrun. rewrite Hid, decide_True in Hrun by done.
  eexists. split; [exact Hrun|].
  destruct (users st !! user_id) as [r|] eqn:Hu; simpl.
  - split_and!.
    + apply lookup_delete_eq.
    + intros uid Hne. by apply lookup_delete_ne.
    + apply dom_fmap_L.
  - done.
Qed.

(** X8. What an update changes.  For a stored user, a verified caller and
    a payload whose username no other user has, the handler answers 200 with
    the id, the new username and the stored creation date; the row then holds
    the new username, the hash of the payload's password when it has one and
    the stored hash otherwise, and every other user is stored as before. *)
Theorem put_updates_row payload user_id ctx st r name :
  is_Some (jwt_identity ctx) →
  users st !! user_id = Some r →
  payload !! "username" = Some name →
  ¬ username_taken name (Some user_id) (users st) →
  ∃ st',
    UserController_put (geojson := geojson) generate_password_hash
      payload user_id ctx st
    = (Return (Response (UserBody (UserJson (Some user_id) (Some name)
                                     (Some (User.row_created_on r)))) 200), st')
    ∧ users st' !! user_id
      = Some (User.Row name
                (match payload !! "password" with
                 | Some p => generate_password_hash (salt ctx) p
                 | None => User.row_password_hash r
                 end)
                (User.row_created_on r))
    ∧ (∀ uid, uid ≠ user_id → users st' !! uid = users st !! uid).
Proof.
  intros [a Ha] Hu Hn Hfree.
  rewrite (put_user_run generate_password_hash payload user_id ctx st r Hu).
  rewrite Ha, Hn. cbn zeta. rewrite decide_False by done.
  eexists. split; [reflexivity|]. simpl. split.
  - by rewrite lookup_insert_eq.
  - intros uid Hne. by rewrite lookup_insert_ne.
Qed.



(** X12. No favourites route ever answers or writes: the listing raises
    for every request, adding and removing raise for every request too (the
    errors of their guards, or [AttributeError]), and the database is as
    before. *)
Theorem favorites_routes_never_succeed ctx st :
  (∀ user_id,
     dispatch structures_to_geojson get_structure generate_password_hash
       user_service (GET_user_favorites user_id) ctx st
     = (Raise (AttributeError "get_favorites_by_user"), st))
  ∧ (∀ user_id payload, ∃ e,
       dispatch structures_to_geojson get_structure generate_password_hash
         user_service (POST_user_favorites user_id payload) ctx st
       = (Raise e, st))
  ∧ (∀ user_id favorite_id, ∃ e,
       dispatch structures_to_geojson get_structure generate_password_hash
         user_service (DELETE_user_favorite user_id favorite_id) ctx st
       = (Raise e, st)).
Proof.
  split_and!.
  - intros. cbn [dispatch]. apply get_favorites_run.
  - intros. cbn [dispatch]. rewrite post_favorite_run. by eexists.
  - intros. cbn [dispatch]. rewrite delete_favorite_run. by eexists.
Qed.

(** One request served twice, with different passwords in its payload, on
    two databases with the same public view. *)
Lemma dispatch_redacted req1 req2 ctx st1 st2 :
  redact_request req1 = redact_request req2 →
  public st1 = public st2 →
  (dispatch structures_to_geojson get_structure generate_password_hash
     user_service req1 ctx st1).1
  = (dispatch structures_to_geojson get_structure generate_password_hash
       user_service req2 ctx st2).1
  ∧ public (dispatch structures_to_geojson get_structure
              generate_password_hash user_service req1 ctx st1).2
    = public (dispatch structures_to_geojson get_structure
                generate_password_hash user_service req2 ctx st2).2.
Proof.
  intros Hreq Hpub. pose proof Hpub as [= Hu Hs Hq].
  destruct req1 as [|p1| |uid1 p1| | | | |], req2 as [|p2| |uid2 p2| | | | |];
    simpl in Hreq; try discriminate Hreq;
    try (by inversion Hreq; subst; apply handle_public).
  - injection Hreq as Hp. rewrite !post_users_run.
    rewrite (redact_payload_username p1 p2 Hp).
    destruct (p2 !! "username") as [name|]; [|done].
    destruct (redact_payload_password p1 p2 Hp)
      as [[-> ->]|(x & y & -> & ->)]; [done|].
    cbn zeta. rewrite Hq.
    rewrite (decide_ext _ (is_Some (users st2 !! users_id_seq st2)
                           ∨ username_taken name None (users st2)))
      by (by rewrite (is_Some_public st1 st2), (username_taken_public _ _ st1 st2)).
    case_decide; simpl; [done|]. split; [done|].
    unfold public; simpl. by rewrite !fmap_insert, Hu, Hs.
  - injection Hreq as -> Hp.
    pose proof (public_lookup st1 st2 uid2 Hpub) as Hrow.
    destruct (users st1 !! uid2) as [r1|] eqn:H1;
      destruct (users st2 !! uid2) as [r2|] eqn:H2; try done.
    + injection Hrow as Hname Hdate. cbn [dispatch].
      rewrite (put_user_run generate_password_hash _ _ _ _ _ H1),
              (put_user_run generate_password_hash _ _ _ _ _ H2).
      destruct (jwt_identity ctx) as [a|]; [|done].
      rewrite (redact_payload_username p1 p2 Hp).
      destruct (p2 !! "username") as [name|]; [|done]. cbn zeta.
      rewrite (decide_ext _ (username_taken name (Some uid2) (users st2)))
        by (by apply username_taken_public).
      case_decide; simpl; [done|]. rewrite Hdate. split; [done|].
      unfold public; simpl. by rewrite !fmap_insert, Hu, Hs, Hq.
    + rewrite !put_user_absent_run by done.
      by rewrite (redact_payload_username p1 p2 Hp).
Qed.

(** X11. Passwords are never observable.  Two sequences of requests that
    differ only in the passwords given at signup and in updates, served on
    databases that differ only in the stored password hashes, get the same
    responses throughout. *)
Theorem passwords_not_observable reqs1 reqs2 st1 st2 :
  Forall2 (λ x y, x.1 = y.1 ∧ redact_request x.2 = redact_request y.2)
          reqs1 reqs2 →
  public st1 = public st2 →
  (serve structures_to_geojson get_structure generate_password_hash
     user_service reqs1 st1).1
  = (serve structures_to_geojson get_structure generate_password_hash
       user_service reqs2 st2).1.
Proof.
  intros Hreqs. revert st1 st2.
  induction Hreqs as [|[ctx1 req1] [ctx2 req2] rest1 rest2 [Hctx Hreq] _ IH];
    intros st1 st2 Hpub; [done|].
  simpl in Hctx. subst ctx2. cbn [serve].
  destruct (dispatch_redacted req1 req2 ctx1 st1 st2 Hreq Hpub) as [Ho Hst].
  destruct (dispatch _ _ _ _ req1 ctx1 st1) as [o1 st1'],
           (dispatch _ _ _ _ req2 ctx1 st2) as [o2 st2'].
  simpl in Ho, Hst. specialize (IH st1' st2' Hst).
  destruct (serve _ _ _ _ rest1 st1') as [os1 ?],
           (serve _ _ _ _ rest2 st2') as [os2 ?].
  simpl in *. congruence.
Qed.

End Coverage.

(** ** The further properties on the sample data *)

(** GET of user 1 leaves the sample database as it is. *)
Lemma get_routes_read_only_witness :
  is_GET (GET_user 1) = true
  ∧ (dispatch (geojson := structs) id sample_get_structure sample_hash
       user_service (GET_user 1) anonymous sample_db).2 = sample_db.
Proof.
  split; [reflexivity|].
  exact (get_routes_read_only (geojson := structs) id sample_get_structure
           sample_hash (GET_user 1) anonymous sample_db eq_refl).
Defined.

(** Signup of carol: she gets id 3, and GET of 3 answers with her record. *)
Lemma signup_then_get_witness :
  UserListController_post (geojson := structs) sample_hash
    (<["password" := "s3cret"]> {["username" := "carol"]}) anonymous sample_db
  = (Return (Response (UserBody (UserJson (Some 3) (Some "carol") (Some 1000)))
               201),
     Db (<[3 := User.Row "carol" "sha256$NaCl$s3cret" 1000]> (users sample_db))
        (structures sample_db) 4)
  ∧ ∀ ctx',
      UserController_get (geojson := structs) 3 ctx'
        (Db (<[3 := User.Row "carol" "sha256$NaCl$s3cret" 1000]> (users sample_db))
            (structures sample_db) 4)
      = (Return (Response (UserBody (UserJson (Some 3) (Some "carol") (Some 1000)))
                   200),
         Db (<[3 := User.Row "carol" "sha256$NaCl$s3cret" 1000]> (users sample_db))
            (structures sample_db) 4).
Proof.
  assert (H : UserListController_post (geojson := structs) sample_hash
                (<["password" := "s3cret"]> {["username" := "carol"]})
                anonymous sample_db
              = (Return (Response (UserBody (UserJson (Some 3) (Some "carol")
                                               (Some 1000))) 201),
                 Db (<[3 := User.Row "carol" "sha256$NaCl$s3cret" 1000]>
                       (users sample_db))
                    (structures sample_db) 4))
    by (vm_compute; reflexivity).
  split; [exact H|].
  destruct (signup_then_get (geojson := structs) id sample_get_structure
              sample_hash _ _ _ _ _ H)
    as (uid & name & p & _ & _ & Hr & _ & _ & _ & Hget).
  injection Hr as <- _. exact Hget.
Defined.

(** Signup under the username of alice, which is taken. *)
Lemma signup_failure_writes_nothing_witness :
  UserListController_post (geojson := structs) sample_hash
    (<["password" := "x"]> {["username" := "alice"]}) anonymous sample_db
  = (Raise IntegrityError, sample_db)
  ∧ sample_db = sample_db
  ∧ (IntegrityError = KeyError "username" ∨ IntegrityError = KeyError "password"
     ∨ IntegrityError = IntegrityError).
Proof.
  assert (H : UserListController_post (geojson := structs) sample_hash
                (<["password" := "x"]> {["username" := "alice"]})
                anonymous sample_db
              = (Raise IntegrityError, sample_db))
    by (vm_compute; reflexivity).
  exact (conj H (signup_failure_writes_nothing (geojson := structs) id
                   sample_get_structure sample_hash _ _ _ _ _ H)).
Defined.

(** Bob deletes himself. *)
Lemma delete_self_witness :
  jwt_identity (as_user 2) = Some 2
  ∧ ∃ st',
      UserController_delete (geojson := structs) 2 (as_user 2) sample_db
      = (Return (Response EmptyBody 204), st')
      ∧ users st' !! 2 = None
      ∧ (∀ uid, uid ≠ 2 → users st' !! uid = users sample_db !! uid)
      ∧ dom (structures st') = dom (structures sample_db).
Proof.
  split; [reflexivity|].
  exact (delete_self (geojson := structs) id sample_get_structure sample_hash
           2 (as_user 2) sample_db eq_refl).
Defined.

(** Bob renames alice and gives her a new password. *)
Lemma put_updates_row_witness :
  is_Some (jwt_identity (as_user 2))
  ∧ users sample_db !! 1 = Some alice
  ∧ (<["password" := "new"]> {["username" := "alicia"]} : gmap string string)
    !! "username" = Some "alicia"
  ∧ ¬ username_taken "alicia" (Some 1) (users sample_db)
  ∧ ∃ st',
      UserController_put (geojson := structs) sample_hash
        (<["password" := "new"]> {["username" := "alicia"]}) 1 (as_user 2)
        sample_db
      = (Return (Response (UserBody (UserJson (Some 1) (Some "alicia")
                                       (Some 100))) 200), st')
      ∧ users st' !! 1 = Some (User.Row "alicia" "sha256$NaCl$new" 100)
      ∧ (∀ uid, uid ≠ 1 → users st' !! uid = users sample_db !! uid).
Proof.
  assert (Hfree : ¬ username_taken "alicia" (Some 1) (users sample_db)).
  { apply (bool_decide_unpack _). vm_compute. exact I. }
  split; [by exists 2|]. split; [reflexivity|]. split; [reflexivity|].
  split; [exact Hfree|].
  exact (put_updates_row (geojson := structs) sample_hash
           (<["password" := "new"]> {["username" := "alicia"]}) 1 (as_user 2)
           sample_db alice "alicia" (ex_intro _ 2 eq_refl) eq_refl eq_refl Hfree).
Defined.

(** Carol signs up and changes her password, once with one pair of
    passwords and once with another: the responses are the same. *)
Lemma passwords_not_observable_witness :
  Forall2 (λ x y, x.1 = y.1 ∧ redact_request x.2 = redact_request y.2)
    [(anonymous, POST_users (<["password" := "s3cret"]> {["username" := "carol"]}));
     (as_user 3, PUT_user 3 (<["password" := "hunter2"]> {["username" := "carol"]}));
     (anonymous, GET_users)]
    [(anonymous, POST_users (<["password" := "12345"]> {["username" := "carol"]}));
     (as_user 3, PUT_user 3 (<["password" := "qwerty"]> {["username" := "carol"]}));
     (anonymous, GET_users)]
  ∧ public sample_db = public sample_db
  ∧ (serve (geojson := structs) id sample_get_structure sample_hash user_service
       [(anonymous, POST_users (<["password" := "s3cret"]> {["username" := "carol"]}));
        (as_user 3, PUT_user 3 (<["password" := "hunter2"]> {["username" := "carol"]}));
        (anonymous, GET_users)] sample_db).1
    = (serve (geojson := structs) id sample_get_structure sample_hash user_service
         [(anonymous, POST_users (<["password" := "12345"]> {["username" := "carol"]}));
          (as_user 3, PUT_user 3 (<["password" := "qwerty"]> {["username" := "carol"]}));
          (anonymous, GET_users)] sample_db).1.
Proof.
  assert (H : Forall2 (λ x y, x.1 = y.1 ∧ redact_request x.2 = redact_request y.2)
    [(anonymous, POST_users (<["password" := "s3cret"]> {["username" := "carol"]}));
     (as_user 3, PUT_user 3 (<["password" := "hunter2"]> {["username" := "carol"]}));
     (anonymous, GET_users)]
    [(anonymous, POST_users (<["password" := "12345"]> {["username" := "carol"]}));
     (as_user 3, PUT_user 3 (<["password" := "qwerty"]> {["username" := "carol"]}));
     (anonymous, GET_users)]).
  { repeat (constructor; [split; vm_compute; reflexivity|]). constructor. }
  split; [exact H|]. split; [reflexivity|].
  exact (passwords_not_observable (geojson := structs) id sample_get_structure
           sample_hash _ _ sample_db sample_db H eq_refl).
Defined.
